(** * tion_btle/tion.py: the Tion breezer driver base class

    A shallow embedding of [src/tion_btle/tion.py] and the properties of it
    that the specification states.

    Conventions of the embedding.
    - Python [int] is [Z]; a [bytearray] is a [list byte] (the module never
      mutates one, so a value stands for the object); [str] is [string].
    - A Python call either returns a value or raises: [Result].  Only
      subclasses of [Exception] are modelled, which is what
      [except Exception] catches.
    - The [async def] methods are awaited one at a time by their callers, so
      each is modelled as the sequential function its body describes.
    - Calls on the module logger, [time.sleep] and calls on the [BleakClient]
      are recorded, in order, in a trace of [Event]s. *)

From Stdlib Require Import ZArith List String Ascii Bool Lia DecimalString.
From Stdlib.Strings Require Import Byte.
Import ListNotations.

Open Scope string_scope.
Open Scope list_scope.
Open Scope Z_scope.

(** Python's [+], [==] and [!=] on strings. *)
Notation "a +++ b" := (String.append a b) (at level 60, right associativity).
Notation "a == b" := (String.eqb a b) (at level 70, no associativity).
Notation "a != b" := (negb (String.eqb a b)) (at level 70, no associativity).

(** ** Python values, exceptions and results *)

Definition bytes := list byte.

Inductive PyVal : Type :=
| PyNone
| PyBool (b : bool)
| PyInt (z : Z)
| PyStr (s : string)
| PyBytes (b : bytes).

(** The exception classes that occur.  [TionException] is the module's own
    class (lines 32-35): it stores [expression] and [message]. *)
Inductive Exception : Type :=
| BleakError (msg : string)
| IndexError (msg : string)
| KeyError (key : string)
| TypeError (msg : string)
| UnboundLocalError (msg : string)
| TionException (expression message : string)
| OtherError (cls msg : string).

Inductive Result (A : Type) : Type :=
| Return (a : A)
| Raise (e : Exception).
Arguments Return {A} a.
Arguments Raise {A} e.

Definition is_BleakError (e : Exception) : bool :=
  match e with BleakError _ => true | _ => false end.

Definition is_IndexError (e : Exception) : bool :=
  match e with IndexError _ => true | _ => false end.

Definition is_TionException (e : Exception) : bool :=
  match e with TionException _ _ => true | _ => false end.

(** [str(n)] and ["%d" % n] for an integer. *)
Definition str_int (z : Z) : string := NilZero.string_of_int (Z.to_int z).

(** [bytes.hex()]: two lower-case hexadecimal digits per byte. *)
Definition hex_digit (n : N) : ascii :=
  match String.get (N.to_nat n) "0123456789abcdef" with
  | Some c => c
  | None => "0"%char
  end.

Definition hex_byte (b : byte) : string :=
  let n := Byte.to_N b in
  String (hex_digit (n / 16)) (String (hex_digit (n mod 16)) EmptyString).

Fixpoint hex (bs : bytes) : string :=
  match bs with
  | [] => ""
  | b :: rest => hex_byte b +++ hex rest
  end.

(** [l[i]] on a Python list: a negative index counts from the end, and an
    index outside [-len(l) .. len(l)-1] raises [IndexError]. *)
Definition list_getitem {A : Type} (l : list A) (i : Z) : Result A :=
  let n := Z.of_nat (List.length l) in
  let j := if i <? 0 then i + n else i in
  if (j <? 0) || (n <=? j) then Raise (IndexError "list index out of range")
  else match nth_error l (Z.to_nat j) with
       | Some x => Return x
       | None => Raise (IndexError "list index out of range")
       end.

(** [d[key]] on a dict with string keys, here the [**kwargs] of a call. *)
Definition kwargs := list (string * bytes).

Fixpoint dict_getitem (d : kwargs) (key : string) : Result bytes :=
  match d with
  | [] => Raise (KeyError key)
  | (k, v) :: rest => if k == key then Return v else dict_getitem rest key
  end.

(** ** Effects: the logger, the clock and the transport *)

Inductive Level : Type := DEBUG | INFO | WARNING.

(** The methods of [BleakClient] the driver calls. *)
Inductive BtleCall : Type :=
| call_is_connected
| call_connect
| call_disconnect
| call_write_gatt_char (uuid : string) (data : bytes) (response : bool)
| call_start_notify (uuid : string).

Inductive Event : Type :=
| Log (level : Level) (msg : string)
| Sleep (seconds : Z)
| Btle (c : BtleCall).

Definition is_warning (ev : Event) : bool :=
  match ev with Log WARNING _ => true | _ => false end.

Definition is_btle (ev : Event) : bool :=
  match ev with Btle _ => true | _ => false end.

(** The warnings logged in a trace, and the transport calls made in it. *)
Definition warnings (t : list Event) : list Event := filter is_warning t.
Definition transport_calls (t : list Event) : list Event := filter is_btle t.

(** ** class TionDelegation (lines 12-29) *)

Record TionDelegation : Type := mkDelegation {
  _have_new_data : bool;
  _data : bytes
}.

(** [TionDelegation.__init__] *)
Definition TionDelegation_init : TionDelegation :=
  {| _have_new_data := false; _data := [] |}.

(** [handleNotification(handle, data)]: the new state and what is logged. *)
Definition handleNotification (self : TionDelegation) (handle : Z) (data : bytes)
  : TionDelegation * list Event :=
  let self := {| _have_new_data := _have_new_data self; _data := data |} in
  let self := {| _have_new_data := true; _data := _data self |} in
  (self, [Log DEBUG ("Got data in " +++ str_int handle +++ " response " +++ hex data)]).

(** The property [data]: reading it clears the flag and returns the buffer. *)
Definition data (self : TionDelegation) : bytes * TionDelegation :=
  let self := {| _have_new_data := false; _data := _data self |} in
  (_data self, self).

(** The property [have_new_data]. *)
Definition have_new_data (self : TionDelegation) : bool := _have_new_data self.

(** ** class tion: the parts that need no transport *)

(** [tion.statuses] (line 39). *)
Definition statuses : list string := ["off"; "on"].

(** A local variable that may not be bound yet: reading it unbound raises
    [UnboundLocalError]. *)
Definition read_local {A : Type} (name : string) (v : option A) : Result A :=
  match v with
  | Some a => Return a
  | None => Raise (UnboundLocalError name)
  end.

(** [decode_temperature] (lines 94-107).  [raw] is one element of a
    received frame, an integer, which is what the comparison with [barrier]
    needs.  On entry the local [result] is unbound; the [else] branch reads
    it on the right of its assignment. *)
Definition decode_temperature (raw : Z) : Result Z :=
  let barrier := 128 in
  let result : option Z := None in
  if raw <? barrier then
    let result := Some raw in
    read_local "result" result
  else
    match read_local "result" result with
    | Return r =>
        let result := Some (- (Z.lnot (r - barrier) + barrier + 1)) in
        read_local "result" result
    | Raise e => Raise e
    end.

(** The [else] branch as it reads with [raw] in place of [result]. *)
Definition decode_negative (raw : Z) : Z :=
  let barrier := 128 in - (Z.lnot (raw - barrier) + barrier + 1).

(** [_process_status] (lines 109-114). *)
Definition _process_status (code : Z) : Result string :=
  match list_getitem statuses code with
  | Return status => Return status
  | Raise e => if is_IndexError e then Return "unknown" else Raise e
  end.

(** ** The transport and the interpreter's built-ins *)

(** [bleak.BleakClient], as far as the driver uses it.  The client is an
    external object with a state of its own: each method takes the state and
    gives back a result and the next state. *)
Class BleakClient (B : Type) : Type := {
  BleakClient_init : string -> B;
  is_connected : B -> Result bool * B;
  connect : B -> Result PyVal * B;
  disconnect : B -> Result PyVal * B;
  write_gatt_char : string -> bytes -> bool -> B -> Result PyVal * B;
  start_notify : string -> B -> Result PyVal * B
}.

(** [str(e)] for an exception: the interpreter's rendering, which the driver
    only ever pastes into log messages. *)
Class Builtins : Type := {
  str_exc : Exception -> string
}.

(** ** class tion (lines 38-194) *)

Section Driver.

Context {B : Type} {client : BleakClient B} {builtins : Builtins}.

(** The instance attributes set by [__init__], and the two class attributes
    [uuid_notify] and [uuid_write] that device families override. *)
Record tion : Type := mktion {
  _mac : string;
  _btle : B;
  _delegation : TionDelegation;
  _fan_speed : Z;
  uuid_notify : string;
  uuid_write : string
}.

Definition set_btle (self : tion) (b : B) : tion :=
  {| _mac := _mac self; _btle := b; _delegation := _delegation self;
     _fan_speed := _fan_speed self;
     uuid_notify := uuid_notify self; uuid_write := uuid_write self |}.

Definition set_fan_speed (self : tion) (v : Z) : tion :=
  {| _mac := _mac self; _btle := _btle self; _delegation := _delegation self;
     _fan_speed := v;
     uuid_notify := uuid_notify self; uuid_write := uuid_write self |}.

(** [tion.__init__(mac)] (lines 43-47). *)
Definition tion_init (mac : string) : tion :=
  {| _mac := mac; _btle := BleakClient_init mac;
     _delegation := TionDelegation_init; _fan_speed := 0;
     uuid_notify := ""; uuid_write := "" |}.

(** A method body: from the object's state to its result, the next state and
    the events it caused, oldest first. *)
Definition M (A : Type) : Type := tion -> Result A * tion * list Event.

Definition ret {A : Type} (a : A) : M A := fun self => (Return a, self, []).

Definition raise {A : Type} (e : Exception) : M A := fun self => (Raise e, self, []).

Definition bind {A C : Type} (m : M A) (k : A -> M C) : M C := fun self =>
  match m self with
  | (Return a, self1, t1) =>
      let '(r, self2, t2) := k a self1 in (r, self2, t1 ++ t2)
  | (Raise e, self1, t1) => (Raise e, self1, t1)
  end.

(** [try: m  except Exception as e: h e]; what [h] raises is not caught. *)
Definition try_except {A : Type} (m : M A) (h : Exception -> M A) : M A := fun self =>
  match m self with
  | (Return a, self1, t1) => (Return a, self1, t1)
  | (Raise e, self1, t1) =>
      let '(r, self2, t2) := h e self1 in (r, self2, t1 ++ t2)
  end.

Definition emit (ev : Event) : M unit := fun self => (Return tt, self, [ev]).

Definition lift {A : Type} (r : Result A) : M A := fun self => (r, self, []).

(** A call of a [BleakClient] method on [self._btle]. *)
Definition btle_call {A : Type} (c : BtleCall) (op : B -> Result A * B) : M A := fun self =>
  let '(r, b) := op (_btle self) in (r, set_btle self b, [Btle c]).

Notation "x <- m ;; k" := (bind m (fun x => k))
  (at level 61, m at next level, right associativity).
Notation "m ;; k" := (bind m (fun _ => k))
  (at level 61, right associativity).

(** The property [mac] (lines 90-92). *)
Definition mac : M string := fun self => (Return (_mac self), self, []).

(** The property [connection_status] (lines 116-118). *)
Definition connection_status : M string :=
  c <- btle_call call_is_connected is_connected ;;
  ret (if c : bool then "connected" else "disc").

(** [_connect] (lines 120-131). *)
Definition _connect : M PyVal :=
  m <- mac ;;
  if m == "dummy" then
    emit (Log INFO "Dummy connect") ;;
    ret PyNone
  else
    status <- connection_status ;;
    (if status == "disc" then
       try_except (btle_call call_connect connect)
         (fun e =>
            if is_BleakError e then
              emit (Log WARNING ("Got " +++ str_exc e +++ " exception")) ;;
              emit (Sleep 2) ;;
              raise e
            else raise e)
     else ret PyNone) ;;
    ret PyNone.

(** [_disconnect] (lines 133-136). *)
Definition _disconnect : M PyVal :=
  status <- connection_status ;;
  if status != "disc" then
    m <- mac ;;
    if m != "dummy" then
      btle_call call_disconnect disconnect ;;
      ret PyNone
    else ret PyNone
  else ret PyNone.

(** [_try_write] (lines 138-148). *)
Definition _try_write (request : bytes) : M PyVal :=
  m <- mac ;;
  if m != "dummy" then
    fun self =>
      (emit (Log DEBUG ("Writing " +++ hex request +++ " to " +++ uuid_write self)) ;;
       btle_call (call_write_gatt_char (uuid_write self) request false)
                 (write_gatt_char (uuid_write self) request false)) self
  else
    emit (Log INFO "Dummy write") ;;
    ret (PyStr "dummy write").

(** [_enable_notifications] (lines 178-180); the callback handed to the
    client is [self._delegation.handleNotification]. *)
Definition _enable_notifications : M PyVal := fun self =>
  (emit (Log DEBUG "Enabling notification") ;;
   btle_call (call_start_notify (uuid_notify self)) (start_notify (uuid_notify self))) self.

(** What [_do_action] is handed as [action]: something with a [__name__]
    that is called with [*args] and [**kwargs]. *)
Record Callable : Type := mkCallable {
  __name__ : string;
  call : list bytes -> kwargs -> M PyVal
}.

(** The body of the [try] (lines 155-158). *)
Definition attempt (action : Callable) (args : list bytes) (kw : kwargs) : M PyVal :=
  (if __name__ action != "_connect" then _connect else ret PyNone) ;;
  call action args kw.

(** The [else] clause of the [while] (lines 165-174). *)
Definition exhausted (action : Callable) (kw : kwargs) : M PyVal :=
  message <-
    (if __name__ action == "_connect" then
       m <- mac ;;
       ret ("Could not connect to " +++ m)
     else if __name__ action == "__try_write" then
       request <- lift (dict_getitem kw "request") ;;
       ret ("Could not write request + " +++ hex request)
     else if __name__ action == "__try_get_state" then
       ret "Could not get updated state"
     else
       ret ("Could not do " +++ __name__ action)) ;;
  raise (TionException (__name__ action) message).

(** The two messages the loop logs (lines 153 and 162). *)
Definition doing_message (action : Callable) (tries max_tries : Z) : string :=
  "Doing " +++ __name__ action +++ ". Attempt "
    +++ str_int (tries + 1) +++ "/" +++ str_int max_tries.

Definition failure_message (action : Callable) (e : Exception) : string :=
  "Got exception while " +++ __name__ action +++ ": " +++ str_exc e.

(** The [while tries < max_tries] loop (lines 152-174).  Each iteration that
    does not leave the loop adds one to [tries], so [max_tries - tries]
    iterations are enough; [fuel] is that bound. *)
Fixpoint _do_action_loop (fuel : nat) (action : Callable) (max_tries tries : Z)
    (args : list bytes) (kw : kwargs) : M PyVal :=
  if tries <? max_tries then
    match fuel with
    | S fuel' =>
        emit (Log DEBUG (doing_message action tries max_tries)) ;;
        try_except (attempt action args kw)
          (fun e =>
             emit (Log WARNING (failure_message action e)) ;;
             _do_action_loop fuel' action max_tries (tries + 1) args kw)
    | O => exhausted action kw
    end
  else exhausted action kw.

(** [_do_action] (lines 150-176). *)
Definition _do_action (action : Callable) (max_tries : Z)
    (args : list bytes) (kw : kwargs) : M PyVal :=
  _do_action_loop (Z.to_nat max_tries) action max_tries 0 args kw.

(** The default of [max_tries]. *)
Definition default_max_tries : Z := 3.

(** The property [fan_speed] (lines 182-184) and its setter (lines 186-193). *)
Definition fan_speed (self : tion) : Z := _fan_speed self.

Definition fan_speed_setter (new_speed : Z) : M unit :=
  if (0 <=? new_speed) && (new_speed <=? 6) then
    fun self => (Return tt, set_fan_speed self new_speed, [])
  else
    emit (Log WARNING "Incorrect new fan speed. Will use 1 instead") ;;
    fun self => (Return tt, set_fan_speed self 1, []).

(** The bound methods [self._connect] and [self._try_write] as callables.
    [_try_write] takes its one parameter by position or as [request=]; any
    other call raises [TypeError] (whose text depends on the interpreter). *)
Definition connect_method : Callable :=
  {| __name__ := "_connect";
     call := fun args kw =>
       match args, kw with
       | [], [] => _connect
       | _, _ => raise (TypeError "_connect() takes 1 positional argument")
       end |}.

Definition try_write_method : Callable :=
  {| __name__ := "_try_write";
     call := fun args kw =>
       match args, kw with
       | [request], [] => _try_write request
       | [], [(k, request)] =>
           if k == "request" then _try_write request
           else raise (TypeError "_try_write() got an unexpected keyword argument")
       | _, _ => raise (TypeError "_try_write() takes 2 positional arguments")
       end |}.

End Driver.

Arguments tion B : clear implicits.
Arguments M B : clear implicits.
Arguments Callable B : clear implicits.

(** The three parts of what a method body gives. *)
Definition outcome {A S : Type} (x : Result A * S * list Event) : Result A := fst (fst x).
Definition state {A S : Type} (x : Result A * S * list Event) : S := snd (fst x).
Definition trace {A S : Type} (x : Result A * S * list Event) : list Event := snd x.

(** When [_do_action] can build the message for an action named
    [__try_write]: the request was passed as the keyword [request]. *)
Definition request_given (name : string) (kw : kwargs) : Prop :=
  name = "__try_write" -> exists request, dict_getitem kw "request" = Return request.

(** A sequence of assignments to the property [fan_speed], oldest first. *)
Definition assign_all {B : Type} (speeds : list Z) (self : tion B) : tion B :=
  fold_left (fun self new_speed => state (fan_speed_setter new_speed self)) speeds self.

(** ** A scripted client, for concrete runs

    A [BleakClient] whose [connect] fails a given number of times before it
    succeeds, and whose [write_gatt_char] needs a connection. *)
Record Scripted : Type := mkScripted {
  connected : bool;
  failures : nat
}.

#[export] Instance Scripted_client : BleakClient Scripted := {
  BleakClient_init := fun _ => {| connected := false; failures := 0 |};
  is_connected := fun b => (Return (connected b), b);
  connect := fun b =>
    match failures b with
    | O => (Return PyNone, {| connected := true; failures := 0 |})
    | S n => (Raise (BleakError "Device not found"),
              {| connected := false; failures := n |})
    end;
  disconnect := fun b => (Return PyNone, {| connected := false; failures := failures b |});
  write_gatt_char := fun _ _ _ b =>
    if connected b then (Return PyNone, b)
    else (Raise (BleakError "Not connected"), b);
  start_notify := fun _ b =>
    if connected b then (Return PyNone, b)
    else (Raise (BleakError "Not connected"), b)
}.

(** A rendering of exceptions that keeps their text. *)
#[export] Instance text_only : Builtins := {
  str_exc := fun e =>
    match e with
    | BleakError m | IndexError m | TypeError m | UnboundLocalError m => m
    | KeyError k => k
    | TionException _ m => m
    | OtherError _ m => m
    end
}.

(** A driver for a device whose next [n] connection attempts fail. *)
Definition unreachable (n : nat) : tion Scripted :=
  {| _mac := "AA:BB:CC:DD:EE:FF";
     _btle := {| connected := false; failures := n |};
     _delegation := TionDelegation_init; _fan_speed := 0;
     uuid_notify := "notify"; uuid_write := "write" |}.

(** A callable that always raises, under a name of the caller's choice. *)
Definition failing (name : string) : Callable Scripted :=
  {| __name__ := name;
     call := fun _ _ => raise (OtherError "RuntimeError" "no answer") |}.

(** A driver whose client reports an open connection. *)
Definition linked : tion Scripted :=
  {| _mac := "AA:BB:CC:DD:EE:FF";
     _btle := {| connected := true; failures := 0 |};
     _delegation := TionDelegation_init; _fan_speed := 0;
     uuid_notify := "notify"; uuid_write := "write" |}.

(** The bound method [self._enable_notifications] as a callable; it takes
    no argument. *)
Definition enable_notifications_method {B : Type} {client : BleakClient B}
  : Callable B :=
  {| __name__ := "_enable_notifications";
     call := fun args kw =>
       match args, kw with
       | [], [] => _enable_notifications
       | _, _ => raise (TypeError "_enable_notifications() takes 1 positional argument")
       end |}.

(** ** Histories

    What a user of the classes does over time: a sequence of operations on
    the sink, and a run of failed attempts inside [_do_action]. *)

(** The two things that happen to a [TionDelegation]: the client delivers a
    notification, or the driver reads [data]. *)
Inductive SinkOp : Type :=
| Notify (handle : Z) (payload : bytes)
| Take.

Definition sink_step (self : TionDelegation) (op : SinkOp) : TionDelegation :=
  match op with
  | Notify handle payload => fst (handleNotification self handle payload)
  | Take => snd (data self)
  end.

Definition sink_run (ops : list SinkOp) (self : TionDelegation) : TionDelegation :=
  fold_left sink_step ops self.

(** The payload of the last notification among [ops], if there is one. *)
Fixpoint last_payload (ops : list SinkOp) : option bytes :=
  match ops with
  | [] => None
  | op :: rest =>
      match last_payload rest, op with
      | Some payload, _ => Some payload
      | None, Notify _ payload => Some payload
      | None, Take => None
      end
  end.

Section Runs.

Context {B : Type} {client : BleakClient B} {builtins : Builtins}.

Variables (action : Callable B) (args : list bytes) (kw : kwargs).

(** [failed_attempts self fs self']: starting from [self], the body of the
    [try] fails [length fs] times in a row, the i-th time with the exception
    and the events of the i-th entry of [fs], and leaves the driver as
    [self']. *)
Inductive failed_attempts : tion B -> list (Exception * list Event) -> tion B -> Prop :=
| failed_none (self : tion B) : failed_attempts self [] self
| failed_more (self s1 self' : tion B) (e : Exception) (t : list Event)
      (fs : list (Exception * list Event)) :
    attempt action args kw self = (Raise e, s1, t) ->
    failed_attempts s1 fs self' ->
    failed_attempts self ((e, t) :: fs) self'.

(** What the loop records over such a run, when the first of the attempts
    is attempt number [tries + 1]: around the events of each attempt, the
    line that announces it and the warning that reports its failure. *)
Fixpoint retry_trace (max_tries tries : Z) (fs : list (Exception * list Event))
  : list Event :=
  match fs with
  | [] => []
  | (e, t) :: rest =>
      Log DEBUG (doing_message action tries max_tries)
        :: t ++ Log WARNING (failure_message action e)
        :: retry_trace max_tries (tries + 1) rest
  end.

End Runs.

(** Settles a comparison of integers once its arguments are known well
    enough for [lia]. *)
Ltac settle_ltb a b :=
  first [ rewrite (proj2 (Z.ltb_lt a b)) by lia
        | rewrite (proj2 (Z.ltb_ge a b)) by lia ].
Ltac settle_leb a b :=
  first [ rewrite (proj2 (Z.leb_le a b)) by lia
        | rewrite (proj2 (Z.leb_gt a b)) by lia ].

(** * Properties *)

(** ** Temperature decoding *)

(** C8: a raw byte in 0..127 decodes to itself. *)
Theorem decode_temperature_low (raw : Z) :
  0 <= raw <= 127 -> decode_temperature raw = Return raw.
Proof.
  intros Hraw. unfold decode_temperature.
  destruct (Z.ltb_spec raw 128) as [_ | Hge]; [reflexivity | lia].
Qed.

Lemma decode_temperature_low_witness :
  0 <= 21 <= 127 /\ decode_temperature 21 = Return 21.
Proof.
  split; [lia | apply (decode_temperature_low 21); lia].
Defined.

(** The formula of the [else] branch, read with [raw] for [result], is the
    signed-byte value. *)
Lemma decode_negative_signed (raw : Z) : decode_negative raw = raw - 256.
Proof.
  unfold decode_negative, Z.lnot. lia.
Qed.

(** C1: a raw byte in 128..255 does not decode to [raw - 256]: the [else]
    branch reads the local [result] before anything is assigned to it, so
    the call raises [UnboundLocalError] and returns no temperature. *)
Theorem decode_temperature_high (raw : Z) :
  128 <= raw <= 255 ->
  decode_temperature raw = Raise (UnboundLocalError "result").
Proof.
  intros Hraw. unfold decode_temperature.
  destruct (Z.ltb_spec raw 128) as [Hlt | _]; [lia | reflexivity].
Qed.

Lemma decode_temperature_high_witness :
  128 <= 200 <= 255 /\
  decode_temperature 200 = Raise (UnboundLocalError "result") /\
  decode_temperature 200 <> Return (200 - 256).
Proof.
  split; [lia | ].
  split; [apply (decode_temperature_high 200); lia | ].
  rewrite (decode_temperature_high 200) by lia. discriminate.
Defined.

(** ** Status labels *)

Lemma list_getitem_nonneg {A : Type} (l : list A) (i : Z) :
  0 <= i < Z.of_nat (List.length l) ->
  exists x, nth_error l (Z.to_nat i) = Some x /\ list_getitem l i = Return x.
Proof.
  intros Hi. unfold list_getitem.
  settle_ltb i 0. settle_ltb i 0. settle_leb (Z.of_nat (List.length l)) i.
  cbn [orb].
  destruct (nth_error l (Z.to_nat i)) as [x | ] eqn:Hnth.
  - exists x. split; reflexivity.
  - apply nth_error_None in Hnth. lia.
Qed.

Lemma list_getitem_negative {A : Type} (l : list A) (i : Z) :
  - Z.of_nat (List.length l) <= i < 0 ->
  list_getitem l i = list_getitem l (i + Z.of_nat (List.length l)).
Proof.
  intros Hi. unfold list_getitem.
  settle_ltb i 0. settle_ltb (i + Z.of_nat (List.length l)) 0.
  cbn iota. settle_ltb (i + Z.of_nat (List.length l)) 0.
  reflexivity.
Qed.

Lemma list_getitem_outside {A : Type} (l : list A) (i : Z) :
  i < - Z.of_nat (List.length l) \/ Z.of_nat (List.length l) <= i ->
  list_getitem l i = Raise (IndexError "list index out of range").
Proof.
  intros Hi. unfold list_getitem.
  destruct (Z.ltb_spec i 0) as [Hneg | Hpos].
  - settle_ltb (i + Z.of_nat (List.length l)) 0. reflexivity.
  - settle_ltb i 0. settle_leb (Z.of_nat (List.length l)) i. reflexivity.
Qed.

(** C2, as amended: a code in [0 .. len-1] gives the label at that index; a
    code in [-len .. -1] is a valid index too and gives the label counted
    from the end; every other code, above or below, gives ["unknown"]. *)
Theorem process_status_labels (code : Z) :
  (0 <= code < Z.of_nat (List.length statuses) ->
   exists label, nth_error statuses (Z.to_nat code) = Some label /\
                 _process_status code = Return label) /\
  (- Z.of_nat (List.length statuses) <= code < 0 ->
   exists label,
     nth_error statuses (Z.to_nat (code + Z.of_nat (List.length statuses))) = Some label /\
     _process_status code = Return label) /\
  (code < - Z.of_nat (List.length statuses) \/ Z.of_nat (List.length statuses) <= code ->
   _process_status code = Return "unknown").
Proof.
  unfold _process_status. repeat split.
  - intros Hi. destruct (list_getitem_nonneg statuses code Hi) as [x [Hnth Hget]].
    exists x. rewrite Hget. split; [exact Hnth | reflexivity].
  - intros Hi. rewrite (list_getitem_negative statuses code Hi).
    destruct (list_getitem_nonneg statuses (code + Z.of_nat (List.length statuses)))
      as [x [Hnth Hget]]; [lia | ].
    exists x. rewrite Hget. split; [exact Hnth | reflexivity].
  - intros Hi. rewrite (list_getitem_outside statuses code Hi). reflexivity.
Qed.

Lemma process_status_labels_witness :
  _process_status 1 = Return "on" /\
  _process_status (-2) = Return "off" /\
  _process_status 2 = Return "unknown" /\
  _process_status (-3) = Return "unknown".
Proof.
  split; [ | split; [ | split]].
  - destruct (proj1 (process_status_labels 1)) as [label [Hnth Hget]];
      [simpl; lia | ].
    simpl in Hnth. injection Hnth as <-. exact Hget.
  - destruct (proj1 (proj2 (process_status_labels (-2)))) as [label [Hnth Hget]];
      [simpl; lia | ].
    simpl in Hnth. injection Hnth as <-. exact Hget.
  - apply (proj2 (proj2 (process_status_labels 2))). simpl. lia.
  - apply (proj2 (proj2 (process_status_labels (-3)))). simpl. lia.
Defined.

(** C2, as stated, fails: the negative code [-1] is not answered with
    ["unknown"] but with the last label. *)
Lemma process_status_minus_one :
  _process_status (-1) = Return "on" /\ _process_status (-1) <> Return "unknown".
Proof.
  split; [reflexivity | discriminate].
Qed.

(** ** The notification sink *)

(** C7: after a notification with payload [d] the flag is set; reading
    [data] returns [d], clears the flag and keeps the buffer; reading it
    again returns [d] again and changes nothing. *)
Theorem notification_then_data (self : TionDelegation) (handle : Z) (d : bytes) :
  let pushed := fst (handleNotification self handle d) in
  let first := data pushed in
  let second := data (snd first) in
  have_new_data pushed = true /\
  fst first = d /\
  have_new_data (snd first) = false /\
  _data (snd first) = d /\
  fst second = d /\
  snd second = snd first.
Proof.
  repeat split.
Qed.

(** C10: a fresh sink has no new data, and its buffer is empty. *)
Theorem fresh_delegation :
  have_new_data TionDelegation_init = false /\
  fst (data TionDelegation_init) = [] /\
  have_new_data (snd (data TionDelegation_init)) = false.
Proof.
  repeat split.
Qed.

(** ** The driver *)

Section DriverFacts.

Context {B : Type} {client : BleakClient B} {builtins : Builtins}.

(** *** Fan speed *)

Lemma fan_speed_setter_in_range (s : Z) (self : tion B) :
  0 <= fan_speed (state (fan_speed_setter s self)) <= 6.
Proof.
  unfold fan_speed_setter.
  destruct (Z.leb_spec 0 s) as [Hlo | Hlo];
    destruct (Z.leb_spec s 6) as [Hhi | Hhi]; cbn; lia.
Qed.

Lemma assign_all_in_range (speeds : list Z) :
  forall self : tion B,
    0 <= fan_speed self <= 6 -> 0 <= fan_speed (assign_all speeds self) <= 6.
Proof.
  induction speeds as [ | s speeds IH]; intros self Hself.
  - exact Hself.
  - cbn [assign_all fold_left]. apply IH. apply fan_speed_setter_in_range.
Qed.

(** C6: assigning a speed in 0..6 stores it, assigning any other integer
    stores 1, and so a freshly built driver keeps its speed in 0..6 through
    any sequence of assignments. *)
Theorem fan_speed_assignment (s : Z) :
  (forall self : tion B,
      0 <= s <= 6 -> fan_speed (state (fan_speed_setter s self)) = s) /\
  (forall self : tion B,
      s < 0 \/ 6 < s -> fan_speed (state (fan_speed_setter s self)) = 1) /\
  (forall (address : string) (speeds : list Z),
      0 <= fan_speed (assign_all speeds (tion_init address)) <= 6).
Proof.
  split; [ | split].
  - intros self Hs. unfold fan_speed_setter.
    settle_leb 0 s. settle_leb s 6. reflexivity.
  - intros self Hs. unfold fan_speed_setter.
    destruct Hs as [Hs | Hs].
    + settle_leb 0 s. reflexivity.
    + settle_leb 0 s. settle_leb s 6. reflexivity.
  - intros address speeds. apply assign_all_in_range. cbn. lia.
Qed.

(** *** The sentinel address *)

(** C3, as amended: on a driver whose address is ["dummy"], [_connect] and
    [_try_write] only log, leave the driver as it is and return [None] and
    ["dummy write"]; [_disconnect] makes one call on the client, the
    [is_connected] query of [connection_status], never [disconnect], and
    returns [None] when the query answers. *)
Theorem dummy_address (self : tion B) :
  _mac self = "dummy" ->
  _connect self = (Return PyNone, self, [Log INFO "Dummy connect"]) /\
  (forall request,
      _try_write request self
      = (Return (PyStr "dummy write"), self, [Log INFO "Dummy write"])) /\
  trace (_disconnect self) = [Btle call_is_connected] /\
  state (_disconnect self) = set_btle self (snd (is_connected (_btle self))) /\
  outcome (_disconnect self)
  = match fst (is_connected (_btle self)) with
    | Return _ => Return PyNone
    | Raise e => Raise e
    end.
Proof.
  intros Hmac. split; [ | split].
  - unfold _connect, bind, mac. rewrite Hmac. reflexivity.
  - intros request. unfold _try_write, bind, mac. rewrite Hmac. reflexivity.
  - unfold _disconnect, connection_status, bind, btle_call, mac, ret.
    destruct (is_connected (_btle self)) as [[[ | ] | e] b];
      cbn; rewrite ?Hmac; cbn; repeat split.
Qed.

(** *** The retry loop *)

Lemma exhausted_raises (name : string) (kw : kwargs) (self : tion B) :
  exists e, forall body,
    exhausted {| __name__ := name; call := body |} kw self = (Raise e, self, []).
Proof.
  unfold exhausted, bind, mac, lift, ret, raise. cbn [__name__].
  destruct (name == "_connect"); [eexists; intros; reflexivity | ].
  destruct (name == "__try_write").
  - destruct (dict_getitem kw "request"); eexists; intros; reflexivity.
  - destruct (name == "__try_get_state"); eexists; intros; reflexivity.
Qed.

Lemma exhausted_device_error (name : string) (kw : kwargs) (self : tion B) :
  request_given name kw ->
  exists message, forall body,
    exhausted {| __name__ := name; call := body |} kw self
    = (Raise (TionException name message), self, []).
Proof.
  intros Hreq. unfold exhausted, bind, mac, lift, ret, raise. cbn [__name__].
  destruct (name == "_connect"); [eexists; intros; reflexivity | ].
  destruct (String.eqb_spec name "__try_write") as [Hname | _].
  - destruct (Hreq Hname) as [request ->]. eexists; intros; reflexivity.
  - destruct (name == "__try_get_state"); eexists; intros; reflexivity.
Qed.

(** Which message goes with which name (lines 165-172). *)
Lemma exhausted_message (action : Callable B) (kw : kwargs) (self : tion B) :
  (__name__ action = "_connect" ->
   exhausted action kw self
   = (Raise (TionException "_connect" ("Could not connect to " +++ _mac self)), self, [])) /\
  (__name__ action = "__try_write" ->
   forall request, dict_getitem kw "request" = Return request ->
   exhausted action kw self
   = (Raise (TionException "__try_write" ("Could not write request + " +++ hex request)),
      self, [])) /\
  (__name__ action = "__try_get_state" ->
   exhausted action kw self
   = (Raise (TionException "__try_get_state" "Could not get updated state"), self, [])) /\
  (__name__ action <> "_connect" -> __name__ action <> "__try_write" ->
   __name__ action <> "__try_get_state" ->
   exhausted action kw self
   = (Raise (TionException (__name__ action) ("Could not do " +++ __name__ action)),
      self, [])).
Proof.
  unfold exhausted, bind, mac, lift, ret, raise.
  split; [ | split; [ | split]].
  - intros ->. reflexivity.
  - intros -> request ->. reflexivity.
  - intros ->. reflexivity.
  - intros H1 H2 H3.
    destruct (String.eqb_spec (__name__ action) "_connect"); [contradiction | ].
    destruct (String.eqb_spec (__name__ action) "__try_write"); [contradiction | ].
    destruct (String.eqb_spec (__name__ action) "__try_get_state"); [contradiction | ].
    reflexivity.
Qed.

Section Loop.

Variables (action : Callable B) (max_tries : Z) (args : list bytes) (kw : kwargs).

Lemma loop_exit (fuel : nat) (tries : Z) :
  max_tries <= tries ->
  _do_action_loop fuel action max_tries tries args kw = exhausted action kw.
Proof.
  intros Hdone. destruct fuel; cbn [_do_action_loop]; settle_ltb tries max_tries;
    reflexivity.
Qed.

Lemma loop_success (fuel : nat) (tries : Z) (self s1 : tion B) v t1 :
  tries < max_tries ->
  attempt action args kw self = (Return v, s1, t1) ->
  _do_action_loop (S fuel) action max_tries tries args kw self
  = (Return v, s1, Log DEBUG (doing_message action tries max_tries) :: t1).
Proof.
  intros Hlt Hattempt. cbn [_do_action_loop]. settle_ltb tries max_tries.
  unfold bind, emit, try_except. rewrite Hattempt. reflexivity.
Qed.

Lemma loop_failure (fuel : nat) (tries : Z) (self s1 : tion B) e t1 :
  tries < max_tries ->
  attempt action args kw self = (Raise e, s1, t1) ->
  _do_action_loop (S fuel) action max_tries tries args kw self
  = let rest := _do_action_loop fuel action max_tries (tries + 1) args kw s1 in
    (outcome rest, state rest,
     Log DEBUG (doing_message action tries max_tries)
       :: t1 ++ Log WARNING (failure_message action e) :: trace rest).
Proof.
  intros Hlt Hattempt. cbn [_do_action_loop]. settle_ltb tries max_tries.
  unfold bind, emit, try_except. rewrite Hattempt.
  destruct (_do_action_loop fuel action max_tries (tries + 1) args kw s1)
    as [[r s2] t2].
  reflexivity.
Qed.

(** The fuel [_do_action] starts the loop with is enough: no larger amount
    changes what the loop does. *)
Lemma loop_fuel (fuel : nat) :
  forall (tries : Z) (self : tion B),
    (Z.to_nat (max_tries - tries) <= fuel)%nat ->
    _do_action_loop fuel action max_tries tries args kw self
    = _do_action_loop (Z.to_nat (max_tries - tries)) action max_tries tries args kw self.
Proof.
  induction fuel as [ | fuel IH]; intros tries self Hfuel.
  - replace (Z.to_nat (max_tries - tries)) with 0%nat by lia. reflexivity.
  - destruct (Z.lt_ge_cases tries max_tries) as [Hlt | Hge].
    + replace (Z.to_nat (max_tries - tries))
        with (S (Z.to_nat (max_tries - (tries + 1)))) by lia.
      destruct (attempt action args kw self) as [[[v | e] s1] t1] eqn:Hattempt.
      * rewrite !(loop_success _ _ _ _ _ _ Hlt Hattempt). reflexivity.
      * rewrite !(loop_failure _ _ _ _ _ _ Hlt Hattempt). cbv zeta.
        rewrite IH by lia. reflexivity.
    + rewrite !loop_exit by lia. reflexivity.
Qed.

End Loop.

Lemma do_action_fuel (action : Callable B) (max_tries : Z) (args : list bytes)
    (kw : kwargs) (self : tion B) (fuel : nat) :
  (Z.to_nat max_tries <= fuel)%nat ->
  _do_action_loop fuel action max_tries 0 args kw self
  = _do_action action max_tries args kw self.
Proof.
  intros Hfuel. unfold _do_action.
  rewrite loop_fuel by (rewrite Z.sub_0_r; exact Hfuel).
  rewrite Z.sub_0_r. reflexivity.
Qed.

(** C5, as amended: with the default three attempts, when the first two
    attempts fail and the third returns [v], [_do_action] returns [v] and
    itself logs exactly two warnings, one after each failure, on top of
    whatever the attempts log; when the third attempt fails too it raises a
    [TionException] and returns nothing, provided an action named
    [__try_write] was given its request by keyword. *)
Theorem do_action_three_attempts
    (action : Callable B) (args : list bytes) (kw : kwargs) (self : tion B)
    (e1 e2 : Exception) (s1 s2 : tion B) (t1 t2 : list Event) :
  attempt action args kw self = (Raise e1, s1, t1) ->
  attempt action args kw s1 = (Raise e2, s2, t2) ->
  (forall v s3 t3,
      attempt action args kw s2 = (Return v, s3, t3) ->
      outcome (_do_action action default_max_tries args kw self) = Return v /\
      state (_do_action action default_max_tries args kw self) = s3 /\
      trace (_do_action action default_max_tries args kw self)
      = Log DEBUG (doing_message action 0 3)
          :: t1 ++ Log WARNING (failure_message action e1)
          :: Log DEBUG (doing_message action 1 3)
          :: t2 ++ Log WARNING (failure_message action e2)
          :: Log DEBUG (doing_message action 2 3) :: t3 /\
      warnings (trace (_do_action action default_max_tries args kw self))
      = warnings t1 ++ Log WARNING (failure_message action e1)
          :: warnings t2 ++ Log WARNING (failure_message action e2)
          :: warnings t3) /\
  (forall e3 s3 t3,
      attempt action args kw s2 = (Raise e3, s3, t3) ->
      request_given (__name__ action) kw ->
      exists message,
        outcome (_do_action action default_max_tries args kw self)
        = Raise (TionException (__name__ action) message) /\
        state (_do_action action default_max_tries args kw self) = s3 /\
        warnings (trace (_do_action action default_max_tries args kw self))
        = warnings t1 ++ Log WARNING (failure_message action e1)
            :: warnings t2 ++ Log WARNING (failure_message action e2)
            :: warnings t3 ++ [Log WARNING (failure_message action e3)]).
Proof.
  intros H1 H2. unfold _do_action, default_max_tries.
  change (Z.to_nat 3) with 3%nat.
  rewrite (loop_failure action 3 args kw 2 0 self s1 e1 t1 ltac:(lia) H1).
  cbv zeta. change (0 + 1) with 1.
  rewrite (loop_failure action 3 args kw 1 1 s1 s2 e2 t2 ltac:(lia) H2).
  cbv zeta. change (1 + 1) with 2.
  split.
  - intros v s3 t3 H3.
    rewrite (loop_success action 3 args kw 0 2 s2 s3 v t3 ltac:(lia) H3).
    unfold outcome, state, trace. cbn [fst snd].
    repeat split.
    unfold warnings. cbn [filter is_warning].
    rewrite !filter_app. cbn [filter is_warning]. rewrite !filter_app.
    cbn [filter is_warning]. reflexivity.
  - intros e3 s3 t3 H3 Hreq.
    rewrite (loop_failure action 3 args kw 0 2 s2 s3 e3 t3 ltac:(lia) H3).
    cbv zeta. rewrite loop_exit by lia.
    destruct action as [name body]. cbn [__name__] in *.
    destruct (exhausted_device_error name kw s3 Hreq) as [message Hraise].
    exists message. rewrite Hraise.
    unfold outcome, state, trace. cbn [fst snd].
    repeat split.
    unfold warnings. cbn [filter is_warning].
    rewrite !filter_app. cbn [filter is_warning]. rewrite !filter_app.
    cbn [filter is_warning]. rewrite !filter_app. cbn [filter is_warning].
    reflexivity.
Qed.

(** Every run of [_connect] leaves an event, so a run of [_do_action] with
    an empty trace has not called it. *)
Lemma connect_leaves_trace (self : tion B) : trace (_connect self) <> [].
Proof.
  unfold _connect, connection_status, bind, btle_call, mac, ret.
  destruct (_mac self == "dummy"); [cbn; discriminate | ].
  destruct (is_connected (_btle self)) as [[c | e] b]; cbn; [ | discriminate].
  destruct c; cbn; [discriminate | ].
  unfold try_except, btle_call.
  destruct (connect _) as [[v | e] b']; cbn; [discriminate | ].
  destruct (is_BleakError e); cbn; discriminate.
Qed.

(** C9, as amended: with [max_tries <= 0] the call raises at once, whatever
    the action does: the driver is unchanged and nothing is logged, slept or
    sent, so neither the action nor [_connect] ran.  What is raised is a
    [TionException], provided an action named [__try_write] was given its
    request by keyword. *)
Theorem do_action_without_tries
    (name : string) (max_tries : Z) (args : list bytes) (kw : kwargs)
    (self : tion B) :
  max_tries <= 0 ->
  (exists e, forall body,
      _do_action {| __name__ := name; call := body |} max_tries args kw self
      = (Raise e, self, [])) /\
  (request_given name kw ->
   exists message, forall body,
      _do_action {| __name__ := name; call := body |} max_tries args kw self
      = (Raise (TionException name message), self, [])).
Proof.
  intros Hmax. unfold _do_action. split.
  - destruct (exhausted_raises name kw self) as [e He].
    exists e. intros body. rewrite loop_exit by lia. apply He.
  - intros Hreq. destruct (exhausted_device_error name kw self Hreq) as [message He].
    exists message. intros body. rewrite loop_exit by lia. apply He.
Qed.

(** Three failed attempts with the default [max_tries] end in the [else]
    clause of the loop. *)
Lemma do_action_three_failures
    (action : Callable B) (args : list bytes) (kw : kwargs) (self : tion B)
    (e1 e2 e3 : Exception) (s1 s2 s3 : tion B) (t1 t2 t3 : list Event) :
  attempt action args kw self = (Raise e1, s1, t1) ->
  attempt action args kw s1 = (Raise e2, s2, t2) ->
  attempt action args kw s2 = (Raise e3, s3, t3) ->
  outcome (_do_action action default_max_tries args kw self)
  = outcome (exhausted action kw s3).
Proof.
  intros H1 H2 H3. unfold _do_action, default_max_tries.
  change (Z.to_nat 3) with 3%nat.
  rewrite (loop_failure action 3 args kw 2 0 self s1 e1 t1 ltac:(lia) H1).
  cbv zeta. change (0 + 1) with 1.
  rewrite (loop_failure action 3 args kw 1 1 s1 s2 e2 t2 ltac:(lia) H2).
  cbv zeta. change (1 + 1) with 2.
  rewrite (loop_failure action 3 args kw 0 2 s2 s3 e3 t3 ltac:(lia) H3).
  cbv zeta. rewrite loop_exit by lia. reflexivity.
Qed.

Lemma try_write_exhausted (kw : kwargs) (self : tion B) :
  exhausted try_write_method kw self
  = (Raise (TionException "_try_write" "Could not do _try_write"), self, []).
Proof.
  reflexivity.
Qed.

(** C4: when the three attempts of the write action [_try_write] fail, the
    error does not carry the message of the write action.  The method's
    [__name__] is ["_try_write"], the loop compares against
    ["__try_write"], and so the error has the generic text, with no trace
    of the request. *)
Theorem do_action_try_write_exhausted
    (args : list bytes) (kw : kwargs) (self : tion B)
    (e1 e2 e3 : Exception) (s1 s2 s3 : tion B) (t1 t2 t3 : list Event) :
  attempt try_write_method args kw self = (Raise e1, s1, t1) ->
  attempt try_write_method args kw s1 = (Raise e2, s2, t2) ->
  attempt try_write_method args kw s2 = (Raise e3, s3, t3) ->
  outcome (_do_action try_write_method default_max_tries args kw self)
  = Raise (TionException "_try_write" "Could not do _try_write").
Proof.
  intros H1 H2 H3.
  rewrite (do_action_three_failures _ _ _ _ _ _ _ _ _ _ _ _ _ H1 H2 H3).
  rewrite try_write_exhausted. reflexivity.
Qed.

End DriverFacts.

(** ** Concrete runs *)

Lemma fan_speed_assignment_witness :
  fan_speed (state (fan_speed_setter 4 (unreachable 0))) = 4 /\
  fan_speed (state (fan_speed_setter 7 (unreachable 0))) = 1 /\
  fan_speed (state (fan_speed_setter (-1) (unreachable 0))) = 1 /\
  0 <= fan_speed (assign_all [3; 9; -2; 6] (tion_init (B := Scripted) "dummy")) <= 6.
Proof.
  split; [ | split; [ | split]].
  - apply (proj1 (fan_speed_assignment 4)). lia.
  - apply (proj1 (proj2 (fan_speed_assignment 7))). lia.
  - apply (proj1 (proj2 (fan_speed_assignment (-1)))). lia.
  - apply (proj2 (proj2 (fan_speed_assignment 0))).
Defined.

Lemma dummy_address_witness :
  _connect (tion_init (B := Scripted) "dummy")
  = (Return PyNone, tion_init "dummy", [Log INFO "Dummy connect"]) /\
  _try_write [x3d; x01] (tion_init (B := Scripted) "dummy")
  = (Return (PyStr "dummy write"), tion_init "dummy", [Log INFO "Dummy write"]) /\
  trace (_disconnect (tion_init (B := Scripted) "dummy")) = [Btle call_is_connected].
Proof.
  destruct (dummy_address (tion_init (B := Scripted) "dummy") eq_refl)
    as [Hconnect [Hwrite [Hdisconnect _]]].
  split; [exact Hconnect | split; [exact (Hwrite [x3d; x01]) | exact Hdisconnect]].
Defined.

(** C3, as stated, fails: on a driver with the address ["dummy"],
    [_disconnect] does call the client, to ask whether it is connected. *)
Lemma dummy_disconnect_queries_client :
  transport_calls (trace (_disconnect (tion_init (B := Scripted) "dummy")))
  = [Btle call_is_connected] /\
  transport_calls (trace (_disconnect (tion_init (B := Scripted) "dummy"))) <> [].
Proof.
  split; [reflexivity | discriminate].
Qed.

Lemma do_action_three_attempts_witness :
  (outcome (_do_action connect_method default_max_tries [] [] (unreachable 2))
   = Return PyNone /\
   List.length
     (warnings (trace (_do_action connect_method default_max_tries [] [] (unreachable 2))))
   = 4%nat) /\
  (exists message,
      outcome (_do_action connect_method default_max_tries [] [] (unreachable 3))
      = Raise (TionException "_connect" message)).
Proof.
  split.
  - edestruct (do_action_three_attempts connect_method [] [] (unreachable 2))
      as [Hok _]; [lazy; reflexivity | lazy; reflexivity | ].
    edestruct Hok as [Hv [_ [_ Hw]]]; [lazy; reflexivity | ].
    split; [exact Hv | rewrite Hw; reflexivity].
  - edestruct (do_action_three_attempts connect_method [] [] (unreachable 3))
      as [_ Hfail]; [lazy; reflexivity | lazy; reflexivity | ].
    edestruct Hfail as [message [Hraise _]]; [lazy; reflexivity | | ].
    + intros Hname. discriminate Hname.
    + exists message. exact Hraise.
Defined.

(** C5, as stated, fails: an action named [__try_write] that fails three
    times and was called without the keyword [request] ends in the
    [KeyError] of building the message, not in a [TionException]. *)
Lemma do_action_unnamed_request :
  outcome (_do_action (failing "__try_write") default_max_tries [] [] (unreachable 0))
  = Raise (KeyError "request") /\
  is_TionException (KeyError "request") = false.
Proof.
  split; reflexivity.
Qed.

Lemma do_action_without_tries_witness :
  0 <= 0 /\
  exists message,
    _do_action connect_method 0 [] [] (unreachable 0)
    = (Raise (TionException "_connect" message), unreachable 0, []).
Proof.
  split; [lia | ].
  destruct (do_action_without_tries "_connect" 0 [] [] (unreachable 0) ltac:(lia))
    as [_ Hraise].
  destruct Hraise as [message Hraise].
  - intros Hname. discriminate Hname.
  - exists message. exact (Hraise (call connect_method)).
Defined.

(** C9, as stated, fails: with no attempt allowed, an action named
    [__try_write] called without the keyword [request] ends in [KeyError],
    not in a [TionException]. *)
Lemma do_action_without_tries_unnamed_request :
  _do_action (failing "__try_write") 0 [] [] (unreachable 0)
  = (Raise (KeyError "request"), unreachable 0, []) /\
  is_TionException (KeyError "request") = false.
Proof.
  split; reflexivity.
Qed.

Lemma do_action_try_write_exhausted_witness :
  outcome (_do_action try_write_method default_max_tries []
             [("request", [x3d; x01])] (unreachable 3))
  = Raise (TionException "_try_write" "Could not do _try_write").
Proof.
  eapply (do_action_try_write_exhausted [] [("request", [x3d; x01])] (unreachable 3));
    lazy; reflexivity.
Defined.

(** The message the loop has for a write action, shown on a callable that
    does bear the name it looks for. *)
Example named_write_message :
  outcome (_do_action (failing "__try_write") default_max_tries []
             [("request", [x3d; x01])] (unreachable 0))
  = Raise (TionException "__try_write" "Could not write request + 3d01").
Proof.
  reflexivity.
Qed.

(** * Further properties of the module *)

(** ** Decoding and labels on every integer *)

(** X1: whatever integer it is given, [decode_temperature] returns nothing
    but its argument, and returns at all only below the barrier: no input
    decodes to a value of the other sign. *)
Theorem decode_temperature_returns (raw v : Z) :
  decode_temperature raw = Return v -> raw < 128 /\ v = raw.
Proof.
  unfold decode_temperature.
  destruct (Z.ltb_spec raw 128) as [Hlt | Hge]; cbn.
  - intros Hret. injection Hret as <-. split; [exact Hlt | reflexivity].
  - discriminate.
Qed.

Lemma decode_temperature_returns_witness :
  decode_temperature (-5) = Return (-5) /\ (-5 < 128 /\ -5 = -5).
Proof.
  split; [reflexivity | ].
  apply (decode_temperature_returns (-5) (-5)). reflexivity.
Defined.

(** X2: [_process_status] never raises: for every integer it returns a
    label, and the label is one of [statuses] or ["unknown"]. *)
Theorem process_status_total (code : Z) :
  exists label,
    _process_status code = Return label /\
    (In label statuses \/ label = "unknown").
Proof.
  unfold _process_status.
  destruct (Z.lt_ge_cases code (- Z.of_nat (List.length statuses))) as [Hlow | Hlow].
  - rewrite list_getitem_outside by (left; exact Hlow).
    exists "unknown". split; [reflexivity | right; reflexivity].
  - destruct (Z.lt_ge_cases code 0) as [Hneg | Hpos].
    + rewrite list_getitem_negative by lia.
      destruct (list_getitem_nonneg statuses (code + Z.of_nat (List.length statuses)))
        as [label [Hnth Hget]]; [lia | ].
      rewrite Hget. exists label.
      split; [reflexivity | left; exact (nth_error_In _ _ Hnth)].
    + destruct (Z.lt_ge_cases code (Z.of_nat (List.length statuses))) as [Hin | Hout].
      * destruct (list_getitem_nonneg statuses code) as [label [Hnth Hget]]; [lia | ].
        rewrite Hget. exists label.
        split; [reflexivity | left; exact (nth_error_In _ _ Hnth)].
      * rewrite list_getitem_outside by (right; exact Hout).
        exists "unknown". split; [reflexivity | right; reflexivity].
Qed.

(** ** The sink over time *)

Lemma sink_run_cons (op : SinkOp) (ops : list SinkOp) (self : TionDelegation) :
  sink_run (op :: ops) self = sink_run ops (sink_step self op).
Proof.
  reflexivity.
Qed.

(** X3: after any sequence of notifications and reads, the buffer holds the
    payload of the latest notification, however many came before it unread
    and however often it was read since; and the flag is set exactly when
    the latest operation was a notification. *)
Theorem sink_history (ops : list SinkOp) :
  forall self : TionDelegation,
    _data (sink_run ops self)
    = match last_payload ops with
      | Some payload => payload
      | None => _data self
      end /\
    have_new_data (sink_run ops self)
    = match ops with
      | [] => have_new_data self
      | _ :: _ =>
          match last ops Take with
          | Notify _ _ => true
          | Take => false
          end
      end.
Proof.
  induction ops as [ | op rest IH]; intros self.
  - split; reflexivity.
  - rewrite sink_run_cons.
    destruct (IH (sink_step self op)) as [Hdata Hflag].
    split.
    + rewrite Hdata. cbn [last_payload].
      destruct (last_payload rest) as [payload | ]; [reflexivity | ].
      destruct op; reflexivity.
    + rewrite Hflag. destruct rest as [ | op' rest'].
      * destruct op; reflexivity.
      * reflexivity.
Qed.

(** ** The driver's calls on the client *)

Section ClientCalls.

Context {B : Type} {client : BleakClient B} {builtins : Builtins}.

(** X4: on a real address, [_connect] on a driver whose client reports a
    connection asks the client once and does nothing else: it does not
    connect again, log or sleep, and returns [None]. *)
Theorem connect_when_connected (self : tion B) (b : B) :
  _mac self <> "dummy" ->
  is_connected (_btle self) = (Return true, b) ->
  _connect self = (Return PyNone, set_btle self b, [Btle call_is_connected]).
Proof.
  intros Hmac Hquery.
  unfold _connect, connection_status, bind, btle_call, mac, ret.
  destruct (String.eqb_spec (_mac self) "dummy") as [Hdummy | _]; [contradiction | ].
  rewrite Hquery. reflexivity.
Qed.

(** X5: on a real address, [_connect] on a driver whose client reports no
    connection calls the client's [connect] once.  If that returns,
    [_connect] returns [None].  If it raises, [_connect] raises the same
    exception; for a [BleakError], and only then, it first logs one warning
    and sleeps 2 seconds.  It never retries by itself. *)
Theorem connect_when_disconnected (self : tion B) (b : B) :
  _mac self <> "dummy" ->
  is_connected (_btle self) = (Return false, b) ->
  _connect self
  = match connect b with
    | (Return _, b') =>
        (Return PyNone, set_btle self b', [Btle call_is_connected; Btle call_connect])
    | (Raise e, b') =>
        (Raise e, set_btle self b',
         Btle call_is_connected :: Btle call_connect
           :: (if is_BleakError e then
                 [Log WARNING ("Got " +++ str_exc e +++ " exception"); Sleep 2]
               else []))
    end.
Proof.
  intros Hmac Hquery.
  unfold _connect, connection_status, try_except, bind, btle_call, mac, ret, raise, emit.
  destruct (String.eqb_spec (_mac self) "dummy") as [Hdummy | _]; [contradiction | ].
  rewrite Hquery. cbn.
  destruct (connect b) as [[v | e] b']; cbn; [reflexivity | ].
  destruct (is_BleakError e); reflexivity.
Qed.

(** X6: [_disconnect] always asks the client first.  If the client reports
    no connection, or the question itself raises, nothing more is called.
    If it reports a connection and the address is a real one, the client's
    [disconnect] is called once, and what it raises is passed on. *)
Theorem disconnect_calls (self : tion B) (b : B) :
  (is_connected (_btle self) = (Return false, b) ->
   _disconnect self = (Return PyNone, set_btle self b, [Btle call_is_connected])) /\
  (forall e, is_connected (_btle self) = (Raise e, b) ->
   _disconnect self = (Raise e, set_btle self b, [Btle call_is_connected])) /\
  (is_connected (_btle self) = (Return true, b) ->
   _mac self <> "dummy" ->
   _disconnect self
   = (match fst (disconnect b) with
      | Return _ => Return PyNone
      | Raise e => Raise e
      end,
      set_btle self (snd (disconnect b)),
      [Btle call_is_connected; Btle call_disconnect])).
Proof.
  unfold _disconnect, connection_status, bind, btle_call, mac, ret.
  split; [ | split].
  - intros Hquery. rewrite Hquery. reflexivity.
  - intros e Hquery. rewrite Hquery. reflexivity.
  - intros Hquery Hmac. rewrite Hquery. cbn.
    destruct (String.eqb_spec (_mac self) "dummy") as [Hdummy | _]; [contradiction | ].
    cbn. destruct (disconnect b) as [[v | e] b']; reflexivity.
Qed.

(** X7: on a real address, [_try_write] makes exactly one call on the
    client, [write_gatt_char] on [uuid_write] with the request as given and
    with no response asked for; it does not ask whether the client is
    connected, and it hands back whatever the call returns or raises. *)
Theorem try_write_real (self : tion B) (request : bytes) :
  _mac self <> "dummy" ->
  _try_write request self
  = (fst (write_gatt_char (uuid_write self) request false (_btle self)),
     set_btle self (snd (write_gatt_char (uuid_write self) request false (_btle self))),
     [Log DEBUG ("Writing " +++ hex request +++ " to " +++ uuid_write self);
      Btle (call_write_gatt_char (uuid_write self) request false)]).
Proof.
  intros Hmac. unfold _try_write, bind, btle_call, mac, emit.
  destruct (String.eqb_spec (_mac self) "dummy") as [Hdummy | _]; [contradiction | ].
  cbn. destruct (write_gatt_char _ _ _ _) as [[v | e] b']; reflexivity.
Qed.

End ClientCalls.

(** ** The retry loop for any number of attempts *)

Section Retries.

Context {B : Type} {client : BleakClient B} {builtins : Builtins}.

Lemma dict_getitem_raises (d : kwargs) (key : string) (e : Exception) :
  dict_getitem d key = Raise e -> e = KeyError key.
Proof.
  induction d as [ | [k v] rest IH]; cbn.
  - intros Hraise. injection Hraise as <-. reflexivity.
  - destruct (k == key); [discriminate | exact IH].
Qed.

(** The [else] clause raises, changes nothing and records nothing; what it
    raises is the module's exception under the action's name, or the
    [KeyError] of the request that was not passed by keyword. *)
Lemma exhausted_cases (action : Callable B) (kw : kwargs) (self : tion B) :
  exists e,
    exhausted action kw self = (Raise e, self, []) /\
    ((exists message, e = TionException (__name__ action) message) \/
     (__name__ action = "__try_write" /\ e = KeyError "request")).
Proof.
  unfold exhausted, bind, mac, lift, ret, raise.
  destruct (__name__ action == "_connect").
  { eexists. split; [reflexivity | left; eexists; reflexivity]. }
  destruct (String.eqb_spec (__name__ action) "__try_write") as [Hname | _].
  - destruct (dict_getitem kw "request") as [request | e] eqn:Hget.
    + eexists. split; [reflexivity | left; eexists; reflexivity].
    + exists e. split; [reflexivity | right].
      split; [exact Hname | exact (dict_getitem_raises _ _ _ Hget)].
  - destruct (__name__ action == "__try_get_state");
      eexists; (split; [reflexivity | left; eexists; reflexivity]).
Qed.

Lemma exhausted_frame (action : Callable B) (kw : kwargs) (self : tion B) :
  exhausted action kw self = (outcome (exhausted action kw self), self, []).
Proof.
  destruct (exhausted_cases action kw self) as [e [Hraise _]].
  rewrite Hraise. reflexivity.
Qed.

Section Run.

Variables (action : Callable B) (max_tries : Z) (args : list bytes) (kw : kwargs).

(** A run of failures takes the loop from its first attempt to the one
    after its last. *)
Lemma loop_after_failures (self s : tion B) (fs : list (Exception * list Event)) :
  failed_attempts action args kw self fs s ->
  forall (tries : Z) (fuel : nat),
    tries + Z.of_nat (List.length fs) <= max_tries ->
    (List.length fs <= fuel)%nat ->
    _do_action_loop fuel action max_tries tries args kw self
    = (outcome (_do_action_loop (fuel - List.length fs) action max_tries
                  (tries + Z.of_nat (List.length fs)) args kw s),
       state (_do_action_loop (fuel - List.length fs) action max_tries
                (tries + Z.of_nat (List.length fs)) args kw s),
       retry_trace action max_tries tries fs
         ++ trace (_do_action_loop (fuel - List.length fs) action max_tries
                     (tries + Z.of_nat (List.length fs)) args kw s)).
Proof.
  induction 1 as [self | self s1 s e t fs Hattempt Hrest IH]; intros tries fuel Htries Hfuel.
  - cbn [List.length retry_trace app]. rewrite Nat.sub_0_r, Z.add_0_r.
    destruct (_do_action_loop fuel action max_tries tries args kw self) as [[r s'] t'].
    reflexivity.
  - cbn [List.length] in Htries, Hfuel.
    destruct fuel as [ | fuel]; [lia | ].
    rewrite (loop_failure action max_tries args kw fuel tries self s1 e t
               ltac:(lia) Hattempt).
    cbv zeta. rewrite (IH (tries + 1) fuel) by lia.
    cbn [List.length retry_trace outcome state trace fst snd Nat.sub].
    replace (tries + 1 + Z.of_nat (List.length fs))
      with (tries + Z.of_nat (S (List.length fs))) by lia.
    rewrite <- app_comm_cons, <- app_assoc, <- app_comm_cons. reflexivity.
Qed.


End Run.

(** X9: when the first [k] attempts fail, with [k] less than [max_tries],
    and the next one returns [v], [_do_action] returns [v] and makes no
    further attempt.  Its record is, for each failed attempt, the line that
    announces it, the attempt's own events and one warning, and then the
    line and the events of the attempt that returned. *)
Theorem do_action_retries
    (action : Callable B) (max_tries : Z) (args : list bytes) (kw : kwargs)
    (self s s' : tion B) (fs : list (Exception * list Event))
    (v : PyVal) (t : list Event) :
  failed_attempts action args kw self fs s ->
  Z.of_nat (List.length fs) < max_tries ->
  attempt action args kw s = (Return v, s', t) ->
  _do_action action max_tries args kw self
  = (Return v, s',
     retry_trace action max_tries 0 fs
       ++ Log DEBUG (doing_message action (Z.of_nat (List.length fs)) max_tries) :: t).
Proof.
  intros Hfails Hless Hattempt. unfold _do_action.
  rewrite (loop_after_failures action max_tries args kw self s fs Hfails 0
             (Z.to_nat max_tries)) by lia.
  rewrite Z.add_0_l.
  replace (Z.to_nat max_tries - List.length fs)%nat
    with (S (Z.to_nat max_tries - List.length fs - 1)) by lia.
  rewrite (loop_success action max_tries args kw _ _ s s' v t Hless Hattempt).
  reflexivity.
Qed.

(** X10: when [max_tries] attempts fail one after the other, [_do_action]
    makes no further attempt and raises from its [else] clause, leaving the
    driver as the last attempt left it; it logs one warning for each failed
    attempt and none for giving up. *)
Theorem do_action_gives_up
    (action : Callable B) (max_tries : Z) (args : list bytes) (kw : kwargs)
    (self s : tion B) (fs : list (Exception * list Event)) :
  failed_attempts action args kw self fs s ->
  Z.of_nat (List.length fs) = max_tries ->
  _do_action action max_tries args kw self
  = (outcome (exhausted action kw s), s, retry_trace action max_tries 0 fs) /\
  exists e, outcome (exhausted action kw s) = Raise e.
Proof.
  intros Hfails Hall. unfold _do_action. split.
  - rewrite (loop_after_failures action max_tries args kw self s fs Hfails 0
               (Z.to_nat max_tries)) by lia.
    rewrite loop_exit by lia.
    rewrite exhausted_frame. cbn [outcome state trace fst snd].
    rewrite app_nil_r. reflexivity.
  - destruct (exhausted_cases action kw s) as [e [Hraise _]].
    exists e. rewrite Hraise. reflexivity.
Qed.


End Retries.

(** ** Whole calls *)

Section WholeCalls.

Context {B : Type} {client : BleakClient B} {builtins : Builtins}.

(** X12: on a driver with the address ["dummy"], a write through
    [_do_action] with at least one attempt allowed succeeds at the first
    attempt: it returns ["dummy write"], leaves the driver as it is, logs
    three lines and calls nothing on the client. *)
Theorem do_action_dummy_write (self : tion B) (max_tries : Z) (request : bytes) :
  _mac self = "dummy" ->
  0 < max_tries ->
  _do_action try_write_method max_tries [] [("request", request)] self
  = (Return (PyStr "dummy write"), self,
     [Log DEBUG (doing_message try_write_method 0 max_tries);
      Log INFO "Dummy connect"; Log INFO "Dummy write"]).
Proof.
  intros Hmac Hmax. unfold _do_action.
  replace (Z.to_nat max_tries) with (S (Z.to_nat max_tries - 1)) by lia.
  apply loop_success; [exact Hmax | ].
  unfold attempt. cbn [try_write_method __name__ call].
  change ("_try_write" != "_connect") with true. cbv iota.
  unfold _connect, _try_write, bind, mac, emit, ret.
  rewrite Hmac. cbn. rewrite Hmac. reflexivity.
Qed.

(** X8: the address ["dummy"] does not keep [_enable_notifications] from
    the client.  Through [_do_action] on such a driver the connection step
    only logs, and then the client's [start_notify] is called on
    [uuid_notify]; when it returns, the call returns its value at the first
    attempt. *)
Theorem do_action_dummy_notifications
    (self : tion B) (max_tries : Z) (v : PyVal) (b : B) :
  _mac self = "dummy" ->
  0 < max_tries ->
  start_notify (uuid_notify self) (_btle self) = (Return v, b) ->
  _do_action enable_notifications_method max_tries [] [] self
  = (Return v, set_btle self b,
     [Log DEBUG (doing_message enable_notifications_method 0 max_tries);
      Log INFO "Dummy connect";
      Log DEBUG "Enabling notification";
      Btle (call_start_notify (uuid_notify self))]).
Proof.
  intros Hmac Hmax Hnotify. unfold _do_action.
  replace (Z.to_nat max_tries) with (S (Z.to_nat max_tries - 1)) by lia.
  apply loop_success; [exact Hmax | ].
  unfold attempt. cbn [enable_notifications_method __name__ call].
  change ("_enable_notifications" != "_connect") with true. cbv iota.
  unfold _connect, _enable_notifications, bind, btle_call, mac, emit, ret.
  rewrite Hmac. cbn. rewrite Hnotify. reflexivity.
Qed.

(** X16: on a real address, a write through [_do_action] on a driver whose
    client reports a connection and accepts the write costs one question
    and one write: no connection is opened, nothing is retried, no warning
    is logged, and the value of the client's [write_gatt_char] is returned. *)
Theorem do_action_write_connected
    (self : tion B) (max_tries : Z) (request : bytes) (v : PyVal) (b b' : B) :
  _mac self <> "dummy" ->
  0 < max_tries ->
  is_connected (_btle self) = (Return true, b) ->
  write_gatt_char (uuid_write self) request false b = (Return v, b') ->
  _do_action try_write_method max_tries [] [("request", request)] self
  = (Return v, set_btle self b',
     [Log DEBUG (doing_message try_write_method 0 max_tries);
      Btle call_is_connected;
      Log DEBUG ("Writing " +++ hex request +++ " to " +++ uuid_write self);
      Btle (call_write_gatt_char (uuid_write self) request false)]).
Proof.
  intros Hmac Hmax Hquery Hwrite. unfold _do_action.
  replace (Z.to_nat max_tries) with (S (Z.to_nat max_tries - 1)) by lia.
  apply loop_success; [exact Hmax | ].
  apply String.eqb_neq in Hmac.
  unfold attempt. cbn [try_write_method __name__ call].
  change ("_try_write" != "_connect") with true. cbv iota.
  unfold _connect, _try_write, connection_status, bind, btle_call, mac, emit, ret.
  rewrite Hmac, Hquery. cbn. rewrite Hmac. cbn. rewrite Hwrite. reflexivity.
Qed.

Lemma attempt_connect_method (self : tion B) :
  attempt connect_method [] [] self = _connect self.
Proof.
  unfold attempt. cbn [connect_method __name__ call].
  change ("_connect" != "_connect") with false. cbv iota.
  unfold bind, ret.
  destruct (_connect self) as [[r s] t]. destruct r; reflexivity.
Qed.

Lemma attempt_without_connection (name : string)
    (body : list bytes -> kwargs -> M B PyVal) (args : list bytes) (kw : kwargs)
    (self s1 : tion B) (e : Exception) (t : list Event) :
  name <> "_connect" ->
  _connect self = (Raise e, s1, t) ->
  attempt {| __name__ := name; call := body |} args kw self = (Raise e, s1, t).
Proof.
  intros Hname Hconnect. unfold attempt, bind. cbn [__name__].
  destruct (String.eqb_spec name "_connect") as [Hsame | _]; [contradiction | ].
  cbn [negb]. rewrite Hconnect. reflexivity.
Qed.

Lemma failed_connects (name : string)
    (body : list bytes -> kwargs -> M B PyVal) (args : list bytes) (kw : kwargs)
    (self s : tion B) (fs : list (Exception * list Event)) :
  name <> "_connect" ->
  failed_attempts connect_method [] [] self fs s ->
  failed_attempts {| __name__ := name; call := body |} args kw self fs s.
Proof.
  intros Hname. induction 1 as [self | self s1 s e t fs Hattempt Hrest IH].
  - apply failed_none.
  - apply failed_more with (s1 := s1); [ | exact IH].
    apply attempt_without_connection; [exact Hname | ].
    rewrite <- attempt_connect_method. exact Hattempt.
Qed.

Lemma retry_trace_name (action action' : Callable B) (max_tries : Z)
    (fs : list (Exception * list Event)) :
  __name__ action = __name__ action' ->
  forall tries, retry_trace action max_tries tries fs = retry_trace action' max_tries tries fs.
Proof.
  intros Hname. induction fs as [ | [e t] fs IH]; intros tries; cbn [retry_trace].
  - reflexivity.
  - unfold doing_message, failure_message. rewrite Hname, IH. reflexivity.
Qed.

(** X13: when the client refuses the connection at each of the [max_tries]
    attempts, an action other than [_connect] is never called: the whole
    call, with its result, the driver it leaves and everything it records,
    is the same whatever the action would have done, and the driver is left
    as the last connection attempt left it. *)
Theorem unreachable_device_skips_action
    (name : string) (max_tries : Z) (args : list bytes) (kw : kwargs)
    (self s : tion B) (fs : list (Exception * list Event)) :
  name <> "_connect" ->
  failed_attempts connect_method [] [] self fs s ->
  Z.of_nat (List.length fs) = max_tries ->
  forall body body',
    _do_action {| __name__ := name; call := body |} max_tries args kw self
    = _do_action {| __name__ := name; call := body' |} max_tries args kw self /\
    state (_do_action {| __name__ := name; call := body |} max_tries args kw self) = s.
Proof.
  intros Hname Hfails Hall body body'.
  assert (Hrun : forall f,
             _do_action {| __name__ := name; call := f |} max_tries args kw self
             = (outcome (exhausted {| __name__ := name; call := f |} kw s), s,
                retry_trace {| __name__ := name; call := f |} max_tries 0 fs)).
  { intros f. unfold _do_action.
    rewrite (loop_after_failures _ max_tries args kw self s fs
               (failed_connects name f args kw self s fs Hname Hfails) 0
               (Z.to_nat max_tries)) by lia.
    rewrite loop_exit by lia.
    rewrite exhausted_frame. cbn [outcome state trace fst snd].
    rewrite app_nil_r. reflexivity. }
  rewrite (Hrun body), (Hrun body'). split; [ | reflexivity].
  rewrite (retry_trace_name {| __name__ := name; call := body |}
             {| __name__ := name; call := body' |} max_tries fs eq_refl 0).
  reflexivity.
Qed.

(** *** Fan speed over time *)

Lemma fan_speed_setter_state (s : Z) (self : tion B) :
  state (fan_speed_setter s self)
  = set_fan_speed self (if (0 <=? s) && (s <=? 6) then s else 1).
Proof.
  unfold fan_speed_setter. destruct ((0 <=? s) && (s <=? 6)); reflexivity.
Qed.

(** X14: after any non-empty sequence of assignments to [fan_speed], the
    driver differs from the one before in its fan speed only, and the speed
    is decided by the last assignment alone: its value if that is in 0..6,
    and 1 otherwise. *)
Theorem fan_speed_history (speeds : list Z) :
  forall self : tion B,
    assign_all speeds self
    = match speeds with
      | [] => self
      | _ :: _ =>
          set_fan_speed self
            (if (0 <=? last speeds 0) && (last speeds 0 <=? 6) then last speeds 0 else 1)
      end.
Proof.
  induction speeds as [ | s rest IH]; intros self.
  - reflexivity.
  - change (assign_all (s :: rest) self)
      with (assign_all rest (state (fan_speed_setter s self))).
    rewrite IH, fan_speed_setter_state.
    destruct rest as [ | s' rest']; reflexivity.
Qed.

End WholeCalls.

(** ** Concrete runs of the further properties *)

Lemma connect_when_connected_witness :
  _connect linked = (Return PyNone, linked, [Btle call_is_connected]).
Proof.
  rewrite (connect_when_connected linked (_btle linked)
             ltac:(discriminate) eq_refl).
  reflexivity.
Defined.

Lemma connect_when_disconnected_witness :
  _connect (unreachable 1)
  = (Raise (BleakError "Device not found"), unreachable 0,
     [Btle call_is_connected; Btle call_connect;
      Log WARNING "Got Device not found exception"; Sleep 2]) /\
  _connect (unreachable 0)
  = (Return PyNone, linked, [Btle call_is_connected; Btle call_connect]).
Proof.
  split.
  - rewrite (connect_when_disconnected (unreachable 1) (_btle (unreachable 1))
               ltac:(discriminate) eq_refl).
    reflexivity.
  - rewrite (connect_when_disconnected (unreachable 0) (_btle (unreachable 0))
               ltac:(discriminate) eq_refl).
    reflexivity.
Defined.

Lemma disconnect_calls_witness :
  _disconnect (unreachable 0) = (Return PyNone, unreachable 0, [Btle call_is_connected]) /\
  _disconnect linked
  = (Return PyNone, unreachable 0, [Btle call_is_connected; Btle call_disconnect]).
Proof.
  split.
  - apply (proj1 (disconnect_calls (unreachable 0) (_btle (unreachable 0)))).
    reflexivity.
  - rewrite (proj2 (proj2 (disconnect_calls (client := Scripted_client)
                             linked (_btle linked)))
               ltac:(reflexivity) ltac:(discriminate)).
    reflexivity.
Defined.

Lemma try_write_real_witness :
  _try_write [x3d; x01] linked
  = (Return PyNone, linked,
     [Log DEBUG "Writing 3d01 to write";
      Btle (call_write_gatt_char "write" [x3d; x01] false)]).
Proof.
  rewrite (try_write_real linked [x3d; x01] ltac:(discriminate)).
  reflexivity.
Defined.

Lemma do_action_retries_witness :
  outcome (_do_action connect_method 5 [] [] (unreachable 2)) = Return PyNone /\
  state (_do_action connect_method 5 [] [] (unreachable 2)) = linked.
Proof.
  erewrite do_action_retries; cycle 1.
  - eapply failed_more; [lazy; reflexivity | ].
    eapply failed_more; [lazy; reflexivity | ].
    apply failed_none.
  - cbn. lia.
  - lazy. reflexivity.
  - split; reflexivity.
Defined.

Lemma do_action_gives_up_witness :
  outcome (_do_action connect_method 2 [] [] (unreachable 2))
  = Raise (TionException "_connect" "Could not connect to AA:BB:CC:DD:EE:FF") /\
  state (_do_action connect_method 2 [] [] (unreachable 2)) = unreachable 0.
Proof.
  edestruct (do_action_gives_up connect_method 2 [] [] (unreachable 2)) as [Hrun _].
  - eapply failed_more; [lazy; reflexivity | ].
    eapply failed_more; [lazy; reflexivity | ].
    apply failed_none.
  - reflexivity.
  - rewrite Hrun. split; reflexivity.
Defined.


Lemma do_action_dummy_write_witness :
  _do_action try_write_method 3 [] [("request", [x3d; x01])]
    (tion_init (B := Scripted) "dummy")
  = (Return (PyStr "dummy write"), tion_init "dummy",
     [Log DEBUG "Doing _try_write. Attempt 1/3";
      Log INFO "Dummy connect"; Log INFO "Dummy write"]).
Proof.
  rewrite (do_action_dummy_write (tion_init (B := Scripted) "dummy") 3 [x3d; x01]
             eq_refl ltac:(lia)).
  reflexivity.
Defined.

Lemma unreachable_device_skips_action_witness :
  _do_action try_write_method 3 [] [("request", [x3d; x01])] (unreachable 3)
  = _do_action (failing "_try_write") 3 [] [("request", [x3d; x01])] (unreachable 3) /\
  state (_do_action try_write_method 3 [] [("request", [x3d; x01])] (unreachable 3))
  = unreachable 0.
Proof.
  eapply (unreachable_device_skips_action "_try_write" 3 []
            [("request", [x3d; x01])] (unreachable 3)).
  - discriminate.
  - eapply failed_more; [lazy; reflexivity | ].
    eapply failed_more; [lazy; reflexivity | ].
    eapply failed_more; [lazy; reflexivity | ].
    apply failed_none.
  - reflexivity.
Defined.

(** ** The shape of every run of the retry loop *)

Section RunShape.

Context {B : Type} {client : BleakClient B} {builtins : Builtins}.

Variables (action : Callable B) (max_tries : Z) (args : list bytes) (kw : kwargs).



End RunShape.

Lemma do_action_dummy_notifications_witness :
  _do_action enable_notifications_method 3 [] []
    {| _mac := "dummy"; _btle := {| connected := true; failures := 0 |};
       _delegation := TionDelegation_init; _fan_speed := 0;
       uuid_notify := "notify"; uuid_write := "write" |}
  = (Return PyNone,
     {| _mac := "dummy"; _btle := {| connected := true; failures := 0 |};
        _delegation := TionDelegation_init; _fan_speed := 0;
        uuid_notify := "notify"; uuid_write := "write" |},
     [Log DEBUG "Doing _enable_notifications. Attempt 1/3";
      Log INFO "Dummy connect";
      Log DEBUG "Enabling notification";
      Btle (call_start_notify "notify")]).
Proof.
  erewrite do_action_dummy_notifications; cycle 1.
  - reflexivity.
  - lia.
  - lazy. reflexivity.
  - reflexivity.
Defined.

Lemma do_action_write_connected_witness :
  _do_action try_write_method 3 [] [("request", [x3d; x01])] linked
  = (Return PyNone, linked,
     [Log DEBUG "Doing _try_write. Attempt 1/3";
      Btle call_is_connected;
      Log DEBUG "Writing 3d01 to write";
      Btle (call_write_gatt_char "write" [x3d; x01] false)]).
Proof.
  erewrite do_action_write_connected; cycle 1.
  - discriminate.
  - lia.
  - lazy. reflexivity.
  - lazy. reflexivity.
  - reflexivity.
Defined.
